(** * EV Parts Store API: the seeding and checkout handlers of [main.py]

    A shallow embedding of the request handlers [seed_products] and
    [checkout], together with the arithmetic they run on (Python floats,
    that is IEEE 754 binary64, and the built-in [round]).  Handlers are
    functions from the database handle to an outcome and the database
    handle afterwards; an exception is an outcome, and what was written
    before it stays written. *)

From Stdlib Require Import ZArith SpecFloat.
From stdpp Require Import base option list gmap strings pretty.

Local Open Scope Z_scope.

(** ** Python floats *)

Module PyFloat.

Definition float : Type := spec_float.

Definition prec : Z := 53.
Definition emax : Z := 1024.

(** [0.0] *)
Definition zero : float := S754_zero false.

Definition add : float → float → float := SFadd prec emax.
Definition mul : float → float → float := SFmul prec emax.
Definition div : float → float → float := SFdiv prec emax.

(** The double nearest to the integer [z], ties to even; an infinity when
    [z] is out of range. *)
Definition nearest (z : Z) : float := binary_normalize prec emax z 0 false.

(** [float(z)] for a Python [int]; [None] stands for [OverflowError] (int
    too large to convert to float). *)
Definition of_int (z : Z) : option float :=
  match nearest z with
  | S754_infinity _ => None
  | f => Some f
  end.

(** The integer nearest to [num / den] ([0 < den]); a tie goes to the even
    neighbour. *)
Definition round_half_even (num den : Z) : Z :=
  let q := num / den in
  match 2 * (num mod den) ?= den with
  | Lt => q
  | Gt => q + 1
  | Eq => if Z.even q then q else q + 1
  end.

(** [m * 2^e * 10^ndigits] as a fraction. *)
Definition scaled (m : positive) (e : Z) (ndigits : N) : Z * Z :=
  match e with
  | Zneg p => (Z.pos m * 10 ^ Z.of_N ndigits, 2 ^ Z.pos p)
  | _ => (Z.pos m * 2 ^ e * 10 ^ Z.of_N ndigits, 1)
  end.

(** The double nearest to [n / 10^ndigits], with the sign [s]. *)
Definition of_decimal (s : bool) (n : Z) (ndigits : N) : float :=
  match n with
  | Z.pos p => div (S754_finite s p 0) (S754_finite false (Z.to_pos (10 ^ Z.of_N ndigits)) 0)
  | _ => S754_zero s
  end.

(** [round(number, ndigits)] for [ndigits >= 0]: the exact value of
    [number] is rounded to [ndigits] decimal places and the decimal is
    read back as a double; infinities and nan round to themselves. *)
Definition round (number : float) (ndigits : N) : float :=
  match number with
  | S754_finite s m e =>
    let '(num, den) := scaled m e ndigits in
    of_decimal s (round_half_even num den) ndigits
  | _ => number
  end.

(** [n] is an integer nearest to [num / den] ([0 < den]), and the even one
    of the two when [num / den] lies halfway between them. *)
Definition nearest_even (num den n : Z) : Prop :=
  Z.abs (2 * num - 2 * den * n) ≤ den ∧
  (Z.abs (2 * num - 2 * den * n) = den → Z.even n = true).

(** Rounding with ties away from zero, the round-half-up of commercial
    arithmetic: the integer, and [number] rounded to [ndigits] places. *)
Definition round_half_up (num den : Z) : Z := (2 * num + den) / (2 * den).

Definition round_ties_up (number : float) (ndigits : N) : float :=
  match number with
  | S754_finite s m e =>
    let '(num, den) := scaled m e ndigits in
    of_decimal s (round_half_up num den) ndigits
  | _ => number
  end.

(** The sign of a float that has one. *)
Definition signed (s : bool) (f : float) : Prop :=
  match f with
  | S754_zero s' | S754_infinity s' | S754_finite s' _ _ => s' = s
  | S754_nan => False
  end.

End PyFloat.

(** ** Exceptions and outcomes *)

Inductive exn :=
  | HTTPException (status_code : Z) (detail : string)
  | OverflowError (message : string).

Inductive outcome (A : Type) :=
  | Return (a : A)
  | Raise (e : exn).
Arguments Return {A} a.
Arguments Raise {A} e.

#[global] Instance outcome_ret : MRet outcome := @Return.
#[global] Instance outcome_bind : MBind outcome := λ A B f m,
  match m with
  | Return a => f a
  | Raise e => Raise e
  end.

(** ** Request and response models *)

Module CartItem.
Record t := { product_id : string; quantity : Z }.
End CartItem.

Module CheckoutRequest.
Record t := {
  items : list CartItem.t;
  customer_name : string;
  email : string;
  address : string
}.
End CheckoutRequest.

Module CheckoutResponse.
Record t := { order_id : string; total : PyFloat.float }.
End CheckoutResponse.

Module SeedResponse.
Record t := { seeded : bool; message : option string; count : option Z }.
End SeedResponse.

(** Modelled from the spec: the [OrderItem] and [Order] schemas
    ([schemas.py] is not among the sources), with the attributes the data
    model lists and the fields [checkout] passes to their constructors. *)
Module OrderItem.
Record t := {
  product_id : string;
  title : string;
  quantity : Z;
  price : PyFloat.float
}.
End OrderItem.

Module Order.
Record t := {
  items : list OrderItem.t;
  total : PyFloat.float;
  customer_name : string;
  email : string;
  address : string
}.
End Order.

(** A product document without its [_id].  Fields may be missing, which is
    what [prod.get(key, default)] caters for; a price that is present is a
    number, stored as an integer or as a double. *)
Module Product.
Inductive number :=
  | Int (z : Z)
  | Float (f : PyFloat.float).
Record t := {
  title : option string;
  description : option string;
  price : option number;
  category : option string;
  in_stock : option bool;
  image : option string
}.
End Product.

(** [float(x)] for a number. *)
Definition float (x : Product.number) : outcome PyFloat.float :=
  match x with
  | Product.Float f => Return f
  | Product.Int z =>
    match PyFloat.of_int z with
    | Some f => Return f
    | None => Raise (OverflowError "int too large to convert to float")
    end
  end.

(** [price * qty] for a float [price] and an int [qty]: the int is
    converted first. *)
Definition mul_int (price : PyFloat.float) (qty : Z) : outcome PyFloat.float :=
  q ← float (Product.Int qty); mret (PyFloat.mul price q).

(** The sample catalogue of [seed_products]. *)
Definition samples : list Product.t := [
  {| Product.title := Some "Level 2 Home Charger";
     Product.description := Some "Fast 32A wall-mounted EVSE with WiFi smart scheduling.";
     Product.price := Some (Product.Float (S754_finite false 8778500836163584 (-44)));
     Product.category := Some "charging";
     Product.in_stock := Some true;
     Product.image := Some "https://images.unsplash.com/photo-1593941707882-a5bba14938c1?q=80&w=1200&auto=format&fit=crop" |};
  {| Product.title := Some "Type 2 Charging Cable 7m";
     Product.description := Some "Durable T2 to T2 cable, 32A, weatherproof.";
     Product.price := Some (Product.Float (S754_finite false 4538783999459328 (-45)));
     Product.category := Some "cables";
     Product.in_stock := Some true;
     Product.image := Some "https://images.unsplash.com/photo-1607860108855-0a3d85e9e599?q=80&w=1200&auto=format&fit=crop" |};
  {| Product.title := Some "Portable Tire Inflator";
     Product.description := Some "Digital compressor with auto-stop and LED light.";
     Product.price := Some (Product.Float (S754_finite false 8303511812964352 (-47)));
     Product.category := Some "accessories";
     Product.in_stock := Some true;
     Product.image := Some "https://images.unsplash.com/photo-1627228616588-46e0cd85f618?q=80&w=1200&auto=format&fit=crop" |}
].

(** ** The document store and the handlers *)

Section Store.

(** The [bson] identifiers are kept abstract: [ObjectId s] parses a
    reference ([None] stands for the exception the constructor raises),
    [str] prints an identifier and [new_oid n] is the n-th identifier the
    driver generates for a document inserted without one. *)
Context {oid : Type} `{EqDecision oid}.
Variable ObjectId : string → option oid.
Variable str : oid → string.
Variable new_oid : nat → oid.

Inductive operation :=
  | CountDocuments (collection : string)
  | Find (collection : string) (ids : list oid)
  | InsertOne (collection : string) (_id : oid).

(** The collections [db["product"]] and [db["order"]] in insertion order,
    the operations issued so far, and how many identifiers were
    generated. *)
Record Database := {
  product : list (oid * Product.t);
  order : list (oid * Order.t);
  operations : list operation;
  generated : nat
}.

(** [db] is [None] when no database is configured. *)
Definition handler (A : Type) : Type :=
  option Database → outcome A * option Database.

Definition issue (op : operation) (d : Database) : Database :=
  {| product := product d; order := order d;
     operations := operations d ++ [op]; generated := generated d |}.

(** [db["product"].count_documents({})] *)
Definition count_documents (d : Database) : Z * Database :=
  (Z.of_nat (length (product d)), issue (CountDocuments "product") d).

(** [db["product"].insert_one(p)] *)
Definition insert_one (p : Product.t) (d : Database) : Database :=
  let _id := new_oid (generated d) in
  {| product := product d ++ [(_id, p)]; order := order d;
     operations := operations d ++ [InsertOne "product" _id];
     generated := S (generated d) |}.

(** [db["product"].find({"_id": {"$in": ids}})] *)
Definition find (ids : list oid) (d : Database) : list (oid * Product.t) * Database :=
  (filter (λ p, p.1 ∈ ids) (product d), issue (Find "product" ids) d).

(** [database.create_document] is not among the sources ([database.py]):
    it is a parameter of [checkout], with the contract the specification
    gives the order store, [insert(Order) → identifier]. *)
Variable create_document : string → Order.t → Database → string * Database.

Definition seed_products : handler SeedResponse.t := λ db,
  match db with
  | None => (Raise (HTTPException 500 "Database not configured"), db)
  | Some d =>
    let '(count, d) := count_documents d in
    if 0 <? count then
      (Return {| SeedResponse.seeded := false;
                 SeedResponse.message := Some "Products already exist";
                 SeedResponse.count := None |}, Some d)
    else
      let d := foldl (λ d p, insert_one p d) d samples in
      (Return {| SeedResponse.seeded := true;
                 SeedResponse.message := None;
                 SeedResponse.count := Some (Z.of_nat (length samples)) |}, Some d)
  end.

(** The first loop of [checkout]: every reference is parsed, in order. *)
Fixpoint parse_ids (items : list CartItem.t) (ids : list oid) : outcome (list oid) :=
  match items with
  | [] => Return ids
  | item :: items =>
    match ObjectId (CartItem.product_id item) with
    | Some i => parse_ids items (ids ++ [i])
    | None => Raise (HTTPException 400 "Invalid product id")
    end
  end.

(** The second loop: [product_map[str(p["_id"])] = p]. *)
Definition fill_product_map (found : list (oid * Product.t)) : gmap string (oid * Product.t) :=
  foldl (λ product_map p, <[str p.1 := p]> product_map) ∅ found.

(** The third loop, from [order_items] and [total] so far. *)
Fixpoint price_lines (product_map : gmap string (oid * Product.t))
    (items : list CartItem.t) (order_items : list OrderItem.t)
    (total : PyFloat.float) : outcome (list OrderItem.t * PyFloat.float) :=
  match items with
  | [] => Return (order_items, total)
  | ci :: items =>
    match product_map !! CartItem.product_id ci with
    | None =>
      Raise (HTTPException 400 ("Product not found: " +:+ CartItem.product_id ci))
    | Some prod =>
      let qty := Z.max 1 (CartItem.quantity ci) in
      price ← float (default (Product.Int 0) (Product.price prod.2));
      amount ← mul_int price qty;
      price_lines product_map items
        (order_items ++ [ {| OrderItem.product_id := CartItem.product_id ci;
                             OrderItem.title := default "" (Product.title prod.2);
                             OrderItem.quantity := qty;
                             OrderItem.price := price |} ])
        (PyFloat.add total amount)
    end
  end.

(** [Order(items=order_items, total=round(total, 2), ...)] *)
Definition make_order (order_items : list OrderItem.t) (total : PyFloat.float)
    (payload : CheckoutRequest.t) : Order.t :=
  {| Order.items := order_items;
     Order.total := PyFloat.round total 2;
     Order.customer_name := CheckoutRequest.customer_name payload;
     Order.email := CheckoutRequest.email payload;
     Order.address := CheckoutRequest.address payload |}.

Definition checkout (payload : CheckoutRequest.t) : handler CheckoutResponse.t := λ db,
  match db with
  | None => (Raise (HTTPException 500 "Database not configured"), db)
  | Some d =>
    match parse_ids (CheckoutRequest.items payload) [] with
    | Raise e => (Raise e, Some d)
    | Return ids =>
      let '(found, d) := find ids d in
      let product_map := fill_product_map found in
      match price_lines product_map (CheckoutRequest.items payload) [] PyFloat.zero with
      | Raise e => (Raise e, Some d)
      | Return (order_items, total) =>
        let order := make_order order_items total payload in
        let '(order_id, d) := create_document "order" order d in
        (Return {| CheckoutResponse.order_id := order_id;
                   CheckoutResponse.total := Order.total order |}, Some d)
      end
    end
  end.

(** *** The checkout contract, in the words of the specification *)

(** The product map [checkout] works with, once the references of the cart
    have parsed to [ids]. *)
Definition resolved (d : Database) (ids : list oid) : gmap string (oid * Product.t) :=
  fill_product_map (find ids d).1.

(** The clamped quantity. *)
Definition clamp (quantity : Z) : Z := Z.max 1 quantity.

(** The price of a product as a float, [0.0] when the record has none. *)
Definition price_of (prod : Product.t) : PyFloat.float :=
  match Product.price prod with
  | Some (Product.Float f) => f
  | Some (Product.Int z) => PyFloat.nearest z
  | None => PyFloat.zero
  end.

(** The price of the product a line resolves to. *)
Definition line_price (product_map : gmap string (oid * Product.t))
    (ci : CartItem.t) : PyFloat.float :=
  from_option (λ prod, price_of prod.2) PyFloat.zero
    (product_map !! CartItem.product_id ci).

(** Price times clamped quantity. *)
Definition line_amount (product_map : gmap string (oid * Product.t))
    (ci : CartItem.t) : PyFloat.float :=
  PyFloat.mul (line_price product_map ci)
    (PyFloat.nearest (clamp (CartItem.quantity ci))).

(** The sum of the amounts, added in the order given. *)
Definition sum_in_order (amounts : list PyFloat.float) : PyFloat.float :=
  foldl PyFloat.add PyFloat.zero amounts.

(** The order line of a cart line: reference, title and price of the
    product, clamped quantity. *)
Definition line_item (product_map : gmap string (oid * Product.t))
    (ci : CartItem.t) : OrderItem.t :=
  {| OrderItem.product_id := CartItem.product_id ci;
     OrderItem.title :=
       from_option (λ prod, default "" (Product.title prod.2)) ""
         (product_map !! CartItem.product_id ci);
     OrderItem.quantity := clamp (CartItem.quantity ci);
     OrderItem.price := line_price product_map ci |}.

(** Every line of the cart resolves to a product. *)
Definition valid_cart (product_map : gmap string (oid * Product.t))
    (items : list CartItem.t) : Prop :=
  Forall (λ ci, is_Some (product_map !! CartItem.product_id ci)) items.

(** An integer that [float] converts without [OverflowError]. *)
Definition in_float_range (z : Z) : Prop := is_Some (PyFloat.of_int z).

(** The clamped quantity of the line, and an integer price of its product,
    are in the range of floats. *)
Definition line_in_range (product_map : gmap string (oid * Product.t))
    (ci : CartItem.t) : Prop :=
  in_float_range (clamp (CartItem.quantity ci)) ∧
  ∀ prod z, product_map !! CartItem.product_id ci = Some prod →
    Product.price prod.2 = Some (Product.Int z) → in_float_range z.

(** A later change of the product documents stored under [_id]. *)
Definition update_product (_id : oid) (change : Product.t → Product.t)
    (d : Database) : Database :=
  {| product := (λ p, if decide (p.1 = _id) then (p.1, change p.2) else p) <$> product d;
     order := order d;
     operations := operations d;
     generated := generated d |}.

End Store.

Arguments Database : clear implicits.
Arguments operation : clear implicits.
Arguments handler : clear implicits.

(** ** Documents as dictionaries: [serialize] and [list_products] *)

Module ProductList.
Record t (doc : Type) := { items : list doc }.
Arguments items {doc} _.
End ProductList.

Section Documents.

Context {oid : Type} `{EqDecision oid}.
Variable str : oid → string.

(** [str(x)] for a number is left abstract. *)
Variable str_number : Product.number → string.

(** The values a product document holds. *)
Inductive value :=
  | Id (i : oid)
  | Text (s : string)
  | Number (x : Product.number)
  | Boolean (b : bool).

(** [str(v)] *)
Definition str_value (v : value) : string :=
  match v with
  | Id i => str i
  | Text s => s
  | Number x => str_number x
  | Boolean b => if b then "True" else "False"
  end.

(** The dictionary with the one key, or with none when the field is
    missing. *)
Definition field (key : string) (v : option value) : gmap string value :=
  from_option (λ v, {[ key := v ]}) ∅ v.

(** A stored product as the dictionary the driver yields: its [_id] and
    the fields it has. *)
Definition document (p : oid * Product.t) : gmap string value :=
  {[ "_id" := Id p.1 ]} ∪
  field "title" (Text <$> Product.title p.2) ∪
  field "description" (Text <$> Product.description p.2) ∪
  field "price" (Number <$> Product.price p.2) ∪
  field "category" (Text <$> Product.category p.2) ∪
  field "in_stock" (Boolean <$> Product.in_stock p.2) ∪
  field "image" (Text <$> Product.image p.2).

(** [serialize(doc)] for a dictionary: an empty one is returned as it is;
    otherwise [_id] is popped from a copy and its text stored under
    [id]. *)
Definition serialize (doc : gmap string value) : gmap string value :=
  if decide (doc = ∅) then doc
  else
    match doc !! "_id" with
    | Some _id => <[ "id" := Text (str_value _id) ]> (delete "_id" doc)
    | None => doc
    end.

(** [list_products]: the first 50 documents of [db["product"]], each
    through [serialize].  The read is not entered in [operations], which
    keeps the operations of [seed_products] and [checkout]. *)
Definition list_products : handler oid (ProductList.t (gmap string value)) := λ db,
  match db with
  | None => (Raise (HTTPException 500 "Database not configured"), db)
  | Some d =>
    let items := serialize <$> (document <$> take 50 (product d)) in
    (Return {| ProductList.items := items |}, db)
  end.

End Documents.

Arguments value : clear implicits.

(** ** The diagnostic handler [test_database] *)

Module StatusResponse.
Record t := {
  backend : string;
  database : string;
  database_url : option string;
  database_name : option string;
  connection_status : string;
  collections : list string
}.

(** [response[key] = v], key by key. *)
Definition set_database (v : string) (r : t) : t :=
  {| backend := backend r; database := v; database_url := database_url r;
     database_name := database_name r; connection_status := connection_status r;
     collections := collections r |}.
Definition set_database_url (v : option string) (r : t) : t :=
  {| backend := backend r; database := database r; database_url := v;
     database_name := database_name r; connection_status := connection_status r;
     collections := collections r |}.
Definition set_database_name (v : option string) (r : t) : t :=
  {| backend := backend r; database := database r; database_url := database_url r;
     database_name := v; connection_status := connection_status r;
     collections := collections r |}.
Definition set_connection_status (v : string) (r : t) : t :=
  {| backend := backend r; database := database r; database_url := database_url r;
     database_name := database_name r; connection_status := v;
     collections := collections r |}.
Definition set_collections (v : list string) (r : t) : t :=
  {| backend := backend r; database := database r; database_url := database_url r;
     database_name := database_name r; connection_status := connection_status r;
     collections := v |}.
End StatusResponse.

Section Diagnostics.

Context {oid : Type}.

(** What the handler asks of its surroundings: [db.name] when the handle
    has the attribute; [db.list_collection_names()], the names or the text
    [str(e)] of the exception it raises; [os.getenv]; and [s[:50]], the
    first 50 characters of a text. *)
Variable name : Database oid → option string.
Variable list_collection_names : Database oid → string + list string.
Variable getenv : string → option string.
Variable first_50 : string → string.

(** The truth value of what [os.getenv] returns: [None] and the empty
    text are false. *)
Definition is_set (v : option string) : bool :=
  match v with
  | Some s => negb (String.eqb s "")
  | None => false
  end.

(** [test_database].  Nothing in the outer [try] raises past the inner
    one, so its handler has no case here. *)
Definition test_database (db : option (Database oid)) : StatusResponse.t :=
  let response :=
    {| StatusResponse.backend := "✅ Running";
       StatusResponse.database := "❌ Not Available";
       StatusResponse.database_url := None;
       StatusResponse.database_name := None;
       StatusResponse.connection_status := "Not Connected";
       StatusResponse.collections := [] |} in
  let response :=
    match db with
    | Some d =>
      let response := StatusResponse.set_database "✅ Available" response in
      let response := StatusResponse.set_database_url (Some "✅ Configured") response in
      let response :=
        StatusResponse.set_database_name (Some (default "✅ Connected" (name d))) response in
      let response := StatusResponse.set_connection_status "Connected" response in
      match list_collection_names d with
      | inr collections =>
        let response := StatusResponse.set_collections (take 10 collections) response in
        StatusResponse.set_database "✅ Connected & Working" response
      | inl e =>
        StatusResponse.set_database ("⚠️  Connected but Error: " +:+ first_50 e) response
      end
    | None => StatusResponse.set_database "⚠️  Available but not initialized" response
    end in
  let response :=
    StatusResponse.set_database_url
      (Some (if is_set (getenv "DATABASE_URL") then "✅ Set" else "❌ Not Set")) response in
  let response :=
    StatusResponse.set_database_name
      (Some (if is_set (getenv "DATABASE_NAME") then "✅ Set" else "❌ Not Set")) response in
  response.

End Diagnostics.

(** ** What the handlers are asked to hold, beyond the claims *)

(** A float that is zero or finite, and not negative. *)
Definition finite_nonneg (f : PyFloat.float) : Prop :=
  match f with
  | S754_zero s | S754_finite s _ _ => s = false
  | _ => False
  end.

(** ** Identifiers written as 24 hexadecimal digits

    An instance of the identifier interface, for running the handlers on
    concrete requests: an identifier is kept as its lower-case text. *)

Module Hex24.

Definition oid : Type := string.

(** The lower-case form of a hexadecimal digit. *)
Definition hex_digit (a : Ascii.ascii) : option Ascii.ascii :=
  let n := Ascii.N_of_ascii a in
  if ((48 <=? n) && (n <=? 57))%N then Some a
  else if ((97 <=? n) && (n <=? 102))%N then Some a
  else if ((65 <=? n) && (n <=? 70))%N then Some (Ascii.ascii_of_N (n + 32))
  else None.

Fixpoint fromhex (s : string) : option string :=
  match s with
  | EmptyString => Some EmptyString
  | String a s => d ← hex_digit a; r ← fromhex s; Some (String d r)
  end.

Definition ObjectId (s : string) : option oid :=
  if decide (String.length s = 24%nat) then fromhex s else None.

Definition str (i : oid) : string := i.

Definition hex_char (d : N) : Ascii.ascii :=
  Ascii.ascii_of_N (if (d <? 10)%N then 48 + d else 87 + d).

Fixpoint hex_digits (k : nat) (n : N) : string :=
  match k with
  | O => EmptyString
  | S k => hex_digits k (n / 16) +:+ String (hex_char (n mod 16)) EmptyString
  end.

Definition new_oid (n : nat) : oid := hex_digits 24 (N.of_nat n).

(** Modelled from the spec: [database.create_document] ([database.py] is
    not among the sources), as the order store's [insert(Order) →
    identifier]: the document is written once, under a generated
    identifier, and the identifier is returned as text. *)
Definition create_document (collection_name : string) (data : Order.t)
    (d : Database oid) : string * Database oid :=
  let _id := new_oid (generated d) in
  (str _id,
   {| product := product d; order := order d ++ [(_id, data)];
      operations := operations d ++ [InsertOne collection_name _id];
      generated := S (generated d) |}).

Definition seed_products : handler oid SeedResponse.t :=
  seed_products new_oid.

Definition checkout (payload : CheckoutRequest.t) : handler oid CheckoutResponse.t :=
  checkout ObjectId str create_document payload.

(** A configured database with empty collections. *)
Definition empty : Database oid :=
  {| product := []; order := []; operations := []; generated := 0 |}.

(** Two more products: one priced [0.125], one without a price. *)
Definition clip : Product.t :=
  {| Product.title := Some "Cable clip";
     Product.description := None;
     Product.price := Some (Product.Float (S754_finite false 4503599627370496 (-55)));
     Product.category := Some "accessories";
     Product.in_stock := Some true;
     Product.image := None |}.

Definition leaflet : Product.t :=
  {| Product.title := Some "Charging guide";
     Product.description := None;
     Product.price := None;
     Product.category := None;
     Product.in_stock := Some true;
     Product.image := None |}.

(** The samples, the clip and the leaflet, inserted in this order. *)
Definition catalogue : Database oid :=
  foldl (λ d p, insert_one new_oid p d) empty (samples ++ [clip; leaflet]).

Definition charger_id : string := "000000000000000000000000".
Definition cable_id : string := "000000000000000000000001".
Definition inflator_id : string := "000000000000000000000002".
Definition clip_id : string := "000000000000000000000003".
Definition leaflet_id : string := "000000000000000000000004".
Definition unknown_id : string := "00000000000000000000000a".

(** A change of price, to [0.125]. *)
Definition reprice (p : Product.t) : Product.t :=
  {| Product.title := Product.title p;
     Product.description := Product.description p;
     Product.price := Some (Product.Float (S754_finite false 4503599627370496 (-55)));
     Product.category := Product.category p;
     Product.in_stock := Product.in_stock p;
     Product.image := Product.image p |}.

(** A checkout request with the given lines. *)
Definition cart (lines : list (string * Z)) : CheckoutRequest.t :=
  {| CheckoutRequest.items :=
       (λ line, {| CartItem.product_id := line.1; CartItem.quantity := line.2 |}) <$> lines;
     CheckoutRequest.customer_name := "Ada";
     CheckoutRequest.email := "ada@example.org";
     CheckoutRequest.address := "1 Main Street" |}.

(** [str] of a number, for running [serialize]: integers in decimal.  No
    run below takes the text of a float. *)
Definition str_number (x : Product.number) : string :=
  match x with
  | Product.Int z => pretty z
  | Product.Float _ => ""
  end.

Definition serialize (doc : gmap string (value oid)) : gmap string (value oid) :=
  serialize str str_number doc.

Definition list_products : handler oid (ProductList.t (gmap string (value oid))) :=
  list_products str str_number.

(** A store with one product, under an identifier with a letter in it. *)
Definition kiosk : Database oid :=
  {| product := [(unknown_id, clip)]; order := []; operations := [];
     generated := 11 |}.

End Hex24.

(** Closing the side conditions of a run on concrete data. *)
Ltac run := vm_compute; reflexivity.

Ltac all_resolve := repeat constructor; eexists; run.

Ltac line_in_range :=
  split;
  [ eexists; run
  | let prod := fresh "prod" in
    let z := fresh "z" in
    let Hprod := fresh "Hprod" in
    let Hz := fresh "Hz" in
    intros prod z Hprod Hz; vm_compute in Hprod;
    injection Hprod as <-;
    first [ discriminate Hz | injection Hz as <-; eexists; run ] ].

Ltac all_in_range :=
  repeat (constructor; [line_in_range|]); constructor.

(** * Properties *)

(** The literals [499.0], [129.0] and [59.0] of the catalogue. *)
Example sample_prices :
  Product.price <$> samples =
  (λ z, Product.Float <$> PyFloat.of_int z) <$> [499; 129; 59].
Proof. reflexivity. Qed.

(** ** Conversions *)

Lemma of_int_nearest (z : Z) (f : PyFloat.float) :
  PyFloat.of_int z = Some f → f = PyFloat.nearest z.
Proof.
  unfold PyFloat.of_int. destruct (PyFloat.nearest z); congruence.
Qed.

Lemma float_Int_Return (z : Z) (f : PyFloat.float) :
  float (Product.Int z) = Return f ↔ PyFloat.of_int z = Some f.
Proof.
  simpl. destruct (PyFloat.of_int z); split; congruence.
Qed.

(** ** Rounding *)

Lemma round_half_even_nearest (num den : Z) :
  0 < den → PyFloat.nearest_even num den (PyFloat.round_half_even num den).
Proof.
  intros Hden. unfold PyFloat.nearest_even, PyFloat.round_half_even.
  pose proof (Z.div_mod num den ltac:(lia)) as Hnum.
  pose proof (Z.mod_pos_bound num den Hden) as Hr.
  generalize dependent (num mod den). generalize dependent (num / den).
  intros q r Hnum Hr. subst num.
  destruct (Z.compare_spec (2 * r) den) as [Heq|Hlt|Hgt].
  - destruct (Z.even q) eqn:Heven.
    + split; [lia|done].
    + split; [lia|]. intros _.
      rewrite Z.even_add, Heven. done.
  - split; lia.
  - split; lia.
Qed.

Lemma scaled_eq (m : positive) (e : Z) (ndigits : N) :
  PyFloat.scaled m e ndigits =
  (Z.pos m * 10 ^ Z.of_N ndigits * 2 ^ Z.max e 0, 2 ^ Z.max (- e) 0).
Proof.
  unfold PyFloat.scaled. destruct e as [|p|p].
  - change (Z.max 0 0) with 0. change (Z.max (- 0) 0) with 0.
    f_equal. ring.
  - rewrite (Z.max_l (Z.pos p) 0), (Z.max_r (- Z.pos p) 0) by lia.
    f_equal. ring.
  - rewrite (Z.max_r (Z.neg p) 0), (Z.max_l (- Z.neg p) 0) by lia.
    change (- Z.neg p) with (Z.pos p). f_equal. ring.
Qed.

(** [round] takes a finite float to a nearest hundredth (thousandth, ...),
    the even one on a tie. *)
Lemma round_finite (s : bool) (m : positive) (e : Z) (ndigits : N) :
  ∃ n,
    PyFloat.nearest_even
      (Z.pos m * 10 ^ Z.of_N ndigits * 2 ^ Z.max e 0) (2 ^ Z.max (- e) 0) n ∧
    PyFloat.round (S754_finite s m e) ndigits = PyFloat.of_decimal s n ndigits.
Proof.
  unfold PyFloat.round. rewrite scaled_eq.
  eexists. split; [|done].
  apply round_half_even_nearest. apply Z.pow_pos_nonneg; lia.
Qed.

(** ** Signs *)

Lemma shr_1_nonneg (mrs : shr_record) : 0 ≤ shr_m mrs → 0 ≤ shr_m (shr_1 mrs).
Proof.
  destruct mrs as [m r t]. simpl.
  destruct m as [|[p|p|]|[p|p|]]; simpl; lia.
Qed.

Lemma iter_pos_shr_1_nonneg (p : positive) (mrs : shr_record) :
  0 ≤ shr_m mrs → 0 ≤ shr_m (SpecFloat.iter_pos shr_1 p mrs).
Proof.
  revert mrs. induction p as [p IH|p IH|]; intros mrs Hm; simpl.
  - by apply IH, IH, shr_1_nonneg.
  - by apply IH, IH.
  - by apply shr_1_nonneg.
Qed.

Lemma shr_fexp_nonneg (m e : Z) (l : location) :
  0 ≤ m → 0 ≤ shr_m (shr_fexp PyFloat.prec PyFloat.emax m e l).1.
Proof.
  intros Hm. unfold shr_fexp, shr.
  assert (0 ≤ shr_m (shr_record_of_loc m l)) as Hrec
    by (by destruct l as [|[]]).
  destruct (_ - e) as [|p|p]; simpl; [done| |done].
  by apply iter_pos_shr_1_nonneg.
Qed.

Lemma binary_round_aux_signed (s : bool) (m e : Z) (l : location) :
  0 ≤ m → PyFloat.signed s (binary_round_aux PyFloat.prec PyFloat.emax s m e l).
Proof.
  intros Hm. unfold binary_round_aux.
  pose proof (shr_fexp_nonneg m e l Hm) as H1.
  destruct (shr_fexp _ _ m e l) as [mrs' e']. simpl in H1.
  assert (0 ≤ round_nearest_even (shr_m mrs') (loc_of_shr_record mrs')) as H2.
  { unfold round_nearest_even.
    destruct (loc_of_shr_record mrs') as [|[]]; try done; [|lia].
    destruct (Z.even _); lia. }
  pose proof (shr_fexp_nonneg _ e' loc_Exact H2) as H3.
  destruct (shr_fexp _ _ _ e' loc_Exact) as [mrs'' e'']. simpl in H3.
  destruct (shr_m mrs'') as [|p|p]; simpl; [done| |lia].
  by destruct (_ <=? _).
Qed.

(** The double nearest to a positive integer is not negative. *)
Lemma nearest_signed (z : Z) : 0 < z → PyFloat.signed false (PyFloat.nearest z).
Proof.
  intros Hz. destruct z as [|p|p]; [lia| |lia].
  unfold PyFloat.nearest, binary_normalize, binary_round.
  destruct (shl_align _ _ _) as [mz ez].
  by apply binary_round_aux_signed.
Qed.

(** [0.0] times a positive integer in the range of floats is [0.0]. *)
Lemma mul_zero_nearest (z : Z) :
  0 < z → is_Some (PyFloat.of_int z) →
  PyFloat.mul PyFloat.zero (PyFloat.nearest z) = PyFloat.zero.
Proof.
  intros Hz [f Hf]. pose proof (nearest_signed z Hz) as Hs.
  unfold PyFloat.of_int in Hf.
  destruct (PyFloat.nearest z) as [s|s| |s m e]; simpl in *; try done.
  - by subst s.
  - by subst s.
Qed.

Section Facts.

Context {oid : Type} `{EqDecision oid}.
Variable ObjectId : string → option oid.
Variable str : oid → string.
Variable new_oid : nat → oid.
Variable create_document : string → Order.t → Database oid → string * Database oid.

Implicit Types (d : Database oid) (payload : CheckoutRequest.t).
Implicit Types (product_map : gmap string (oid * Product.t)).
Implicit Types (items : list CartItem.t) (ci : CartItem.t).

(** ** The loops of [checkout] *)

Lemma in_float_range_float (z : Z) :
  in_float_range z → float (Product.Int z) = Return (PyFloat.nearest z).
Proof.
  intros [f Hf]. apply float_Int_Return.
  by rewrite Hf, (of_int_nearest _ _ Hf).
Qed.

(** The first loop succeeds exactly when every reference parses. *)
Lemma parse_ids_mapM items (ids : list oid) :
  parse_ids ObjectId items ids =
  match mapM ObjectId (CartItem.product_id <$> items) with
  | Some parsed => Return (ids ++ parsed)
  | None => Raise (HTTPException 400 "Invalid product id")
  end.
Proof.
  revert ids. induction items as [|ci items IH]; intros ids; simpl.
  - by rewrite app_nil_r.
  - destruct (ObjectId (CartItem.product_id ci)) as [i|]; simpl; [|done].
    rewrite IH. destruct (mapM _ _); simpl; [|done].
    by rewrite <- app_assoc.
Qed.

(** A line that resolves, with numbers in range, is priced as the
    specification says. *)
Lemma price_line product_map ci prod :
  product_map !! CartItem.product_id ci = Some prod →
  line_in_range product_map ci →
  float (default (Product.Int 0) (Product.price prod.2)) =
    Return (line_price product_map ci) ∧
  mul_int (line_price product_map ci) (Z.max 1 (CartItem.quantity ci)) =
    Return (line_amount product_map ci).
Proof.
  intros Hprod [Hqty Hprice]. unfold line_amount, line_price, mul_int, clamp in *.
  rewrite Hprod. cbn [from_option]. unfold price_of. split.
  - destruct (Product.price prod.2) as [[z|f]|] eqn:Hp; cbn [default]; [|done..].
    exact (in_float_range_float _ (Hprice prod z Hprod Hp)).
  - by rewrite (in_float_range_float _ Hqty).
Qed.

(** The third loop runs through a prefix of lines that resolve. *)
Lemma price_lines_app product_map items rest order_items total :
  valid_cart product_map items →
  Forall (line_in_range product_map) items →
  price_lines product_map (items ++ rest) order_items total =
  price_lines product_map rest
    (order_items ++ (line_item product_map <$> items))
    (foldl PyFloat.add total (line_amount product_map <$> items)).
Proof.
  revert order_items total.
  induction items as [|ci items IH]; intros order_items total Hvalid Hrange.
  - simpl. by rewrite app_nil_r.
  - apply Forall_cons in Hvalid as [[prod Hprod] Hvalid].
    apply Forall_cons in Hrange as [Hci Hrange].
    destruct (price_line _ _ _ Hprod Hci) as [Hprice Hamount].
    simpl. rewrite Hprod. rewrite Hprice. simpl. rewrite Hamount. simpl.
    rewrite IH by done. rewrite <- app_assoc. simpl.
    unfold line_item, line_price, clamp. rewrite Hprod. done.
Qed.

Lemma price_lines_valid product_map items order_items total :
  valid_cart product_map items →
  Forall (line_in_range product_map) items →
  price_lines product_map items order_items total =
  Return (order_items ++ (line_item product_map <$> items),
          foldl PyFloat.add total (line_amount product_map <$> items)).
Proof.
  intros Hvalid Hrange.
  rewrite <- (app_nil_r items) at 1. by rewrite price_lines_app.
Qed.


(** With a line that does not resolve the loop returns nothing. *)
Lemma price_lines_absent product_map items order_items total :
  Exists (λ ci, product_map !! CartItem.product_id ci = None) items →
  ∃ e, price_lines product_map items order_items total = Raise e.
Proof.
  revert order_items total.
  induction items as [|ci items IH]; intros order_items total Habsent.
  - by apply Exists_nil in Habsent.
  - simpl. destruct (product_map !! CartItem.product_id ci) as [prod|] eqn:Hprod;
      [|by eexists].
    apply Exists_cons in Habsent as [Hci|Habsent]; [congruence|].
    destruct (float _) as [price|e]; simpl; [|by eexists].
    destruct (mul_int _ _) as [amount|e]; simpl; [|by eexists].
    by apply IH.
Qed.

(** What the loop needs in order to return. *)
Lemma price_lines_Return product_map items order_items total r :
  price_lines product_map items order_items total = Return r →
  valid_cart product_map items ∧ Forall (line_in_range product_map) items.
Proof.
  revert order_items total.
  induction items as [|ci items IH]; intros order_items total Hr.
  - split; constructor.
  - simpl in Hr.
    destruct (product_map !! CartItem.product_id ci) as [prod|] eqn:Hprod; [|done].
    destruct (float _) as [price|e] eqn:Hprice; simpl in Hr; [|done].
    destruct (mul_int _ _) as [amount|e] eqn:Hamount; simpl in Hr; [|done].
    destruct (IH _ _ Hr) as [Hvalid Hrange].
    split; constructor; [by eexists|done| |done].
    split.
    + unfold mul_int in Hamount.
      destruct (float (Product.Int _)) as [q|e] eqn:Hq; [|done].
      apply float_Int_Return in Hq. by exists q.
    + intros prod' z Hprod' Hz. assert (prod' = prod) as -> by congruence.
      rewrite Hz in Hprice. apply float_Int_Return in Hprice. by exists price.
Qed.

(** ** The handler, step by step *)

Lemma checkout_not_configured payload :
  checkout ObjectId str create_document payload None =
  (Raise (HTTPException 500 "Database not configured"), None).
Proof. done. Qed.

Lemma checkout_unparsed d payload :
  mapM ObjectId (CartItem.product_id <$> CheckoutRequest.items payload) = None →
  checkout ObjectId str create_document payload (Some d) =
  (Raise (HTTPException 400 "Invalid product id"), Some d).
Proof.
  intros Hids. unfold checkout. rewrite parse_ids_mapM. by rewrite Hids.
Qed.

Lemma checkout_parsed d payload ids :
  mapM ObjectId (CartItem.product_id <$> CheckoutRequest.items payload) = Some ids →
  checkout ObjectId str create_document payload (Some d) =
  match price_lines (resolved str d ids) (CheckoutRequest.items payload) []
          PyFloat.zero with
  | Raise e => (Raise e, Some (issue (Find "product" ids) d))
  | Return (order_items, total) =>
    let data := make_order order_items total payload in
    let stored := create_document "order" data (issue (Find "product" ids) d) in
    (Return {| CheckoutResponse.order_id := stored.1;
               CheckoutResponse.total := Order.total data |},
     Some stored.2)
  end.
Proof.
  intros Hids. unfold checkout. rewrite parse_ids_mapM, Hids. simpl.
  unfold resolved, find. simpl.
  destruct (price_lines _ _ _ _) as [[order_items total]|e]; [|done].
  simpl. by destruct (create_document _ _ _).
Qed.

(** A response comes from a cart whose references parse and resolve, and
    tells which order was handed to [create_document]. *)
Lemma checkout_Return d payload response db' :
  checkout ObjectId str create_document payload (Some d) = (Return response, db') →
  ∃ ids,
    mapM ObjectId (CartItem.product_id <$> CheckoutRequest.items payload) = Some ids ∧
    valid_cart (resolved str d ids) (CheckoutRequest.items payload) ∧
    Forall (line_in_range (resolved str d ids)) (CheckoutRequest.items payload) ∧
    let total :=
      sum_in_order (line_amount (resolved str d ids) <$> CheckoutRequest.items payload) in
    let data :=
      make_order (line_item (resolved str d ids) <$> CheckoutRequest.items payload)
        total payload in
    let stored := create_document "order" data (issue (Find "product" ids) d) in
    response = {| CheckoutResponse.order_id := stored.1;
                  CheckoutResponse.total := PyFloat.round total 2 |} ∧
    db' = Some stored.2.
Proof.
  intros Hret.
  destruct (mapM ObjectId (CartItem.product_id <$> CheckoutRequest.items payload))
    as [ids|] eqn:Hids; [|by rewrite checkout_unparsed in Hret].
  exists ids. split; [done|].
  rewrite (checkout_parsed _ _ _ Hids) in Hret.
  destruct (price_lines _ _ _ _) as [[order_items total]|e] eqn:Hlines; [|done].
  destruct (price_lines_Return _ _ _ _ _ Hlines) as [Hvalid Hrange].
  rewrite (price_lines_valid _ _ _ _ Hvalid Hrange) in Hlines.
  injection Hlines as <- <-. injection Hret as <- <-.
  split_and!; done.
Qed.

(** What the product map holds comes from the product collection. *)
Lemma fill_product_map_lookup (found : list (oid * Product.t)) (s : string)
    (p : oid * Product.t) :
  fill_product_map str found !! s = Some p → p ∈ found ∧ str p.1 = s.
Proof.
  unfold fill_product_map.
  assert (∀ product_map,
    foldl (λ product_map p, <[str p.1 := p]> product_map) product_map found !! s = Some p →
    (p ∈ found ∧ str p.1 = s) ∨ product_map !! s = Some p) as Hfold.
  { induction found as [|x found IH]; intros product_map Hp; simpl in Hp.
    - by right.
    - destruct (IH _ Hp) as [[Hin Hs]|Hx].
      + left. split; [by right|done].
      + apply lookup_insert_Some in Hx as [[Hs ->]|[_ Hx]].
        * left. split; [by left|done].
        * by right. }
  intros Hp. destruct (Hfold ∅ Hp) as [?|Hempty]; [done|].
  by rewrite lookup_empty in Hempty.
Qed.

Lemma resolved_lookup d (ids : list oid) (s : string) (p : oid * Product.t) :
  resolved str d ids !! s = Some p → p ∈ product d ∧ p.1 ∈ ids ∧ str p.1 = s.
Proof.
  intros Hp. apply fill_product_map_lookup in Hp as [Hin Hs].
  unfold find in Hin. simpl in Hin.
  apply list_elem_of_filter in Hin as [Hid Hin]. done.
Qed.


(** ** Checkout *)

(** C1: for a valid cart (every reference of the cart parses and resolves
    to a product of the product map, the numbers converted to float being
    in range), [checkout] returns: it hands [create_document] an order and
    answers with the identifier it gets and the total of that order, and
    that total is the sum over the lines, in input order, of the price of
    the resolved product times the clamped quantity, rounded to 2 decimal
    places. *)
Theorem checkout_total_is_rounded_sum d payload ids :
  mapM ObjectId (CartItem.product_id <$> CheckoutRequest.items payload) = Some ids →
  valid_cart (resolved str d ids) (CheckoutRequest.items payload) →
  Forall (line_in_range (resolved str d ids)) (CheckoutRequest.items payload) →
  ∃ data,
    let stored := create_document "order" data (issue (Find "product" ids) d) in
    checkout ObjectId str create_document payload (Some d) =
      (Return {| CheckoutResponse.order_id := stored.1;
                 CheckoutResponse.total := Order.total data |},
       Some stored.2) ∧
    Order.total data =
      PyFloat.round
        (sum_in_order
           (line_amount (resolved str d ids) <$> CheckoutRequest.items payload)) 2.
Proof.
  intros Hids Hvalid Hrange.
  rewrite (checkout_parsed _ _ _ Hids).
  rewrite (price_lines_valid _ _ _ _ Hvalid Hrange).
  eexists. split; reflexivity.
Qed.


(** C3: when a reference of the cart does not parse, [checkout] raises the
    400 error "Invalid product id" and the database is as before: no
    lookup was issued and [create_document] is not reached. *)
Theorem checkout_invalid_product_id d payload :
  Exists (λ ci, ObjectId (CartItem.product_id ci) = None)
    (CheckoutRequest.items payload) →
  checkout ObjectId str create_document payload (Some d) =
  (Raise (HTTPException 400 "Invalid product id"), Some d).
Proof.
  intros Hbad. apply checkout_unparsed. apply mapM_None.
  by apply Exists_fmap.
Qed.

(** C6: the empty cart is accepted: an order with no line and total [0.0]
    is handed to [create_document], after a lookup of no identifier, and
    the response carries the identifier [create_document] gives and the
    total [0.0]. *)
Theorem checkout_empty_cart d (customer_name email address : string) :
  checkout ObjectId str create_document
    {| CheckoutRequest.items := [];
       CheckoutRequest.customer_name := customer_name;
       CheckoutRequest.email := email;
       CheckoutRequest.address := address |} (Some d) =
  (let stored :=
     create_document "order"
       {| Order.items := [];
          Order.total := PyFloat.zero;
          Order.customer_name := customer_name;
          Order.email := email;
          Order.address := address |}
       (issue (Find "product" []) d) in
   (Return {| CheckoutResponse.order_id := stored.1;
              CheckoutResponse.total := PyFloat.zero |},
    Some stored.2)).
Proof.
  by rewrite (checkout_parsed _ _ []).
Qed.

(** C4: in any order [checkout] produces, a line asked with a quantity of
    0 or less has quantity 1 and adds its price times 1 to the total, and
    every line of the order has a quantity of at least 1. *)
Theorem checkout_clamps_quantity d payload response db' :
  checkout ObjectId str create_document payload (Some d) = (Return response, db') →
  ∃ ids data amounts,
    mapM ObjectId (CartItem.product_id <$> CheckoutRequest.items payload) = Some ids ∧
    db' = Some (create_document "order" data (issue (Find "product" ids) d)).2 ∧
    Forall2 (λ ci item,
        OrderItem.quantity item = Z.max 1 (CartItem.quantity ci) ∧
        (CartItem.quantity ci ≤ 0 → OrderItem.quantity item = 1))
      (CheckoutRequest.items payload) (Order.items data) ∧
    Forall (λ item, 1 ≤ OrderItem.quantity item) (Order.items data) ∧
    Forall2 (λ ci amount,
        amount = line_amount (resolved str d ids) ci ∧
        (CartItem.quantity ci ≤ 0 →
         amount = PyFloat.mul (line_price (resolved str d ids) ci) (PyFloat.nearest 1)))
      (CheckoutRequest.items payload) amounts ∧
    Order.total data = PyFloat.round (sum_in_order amounts) 2 ∧
    CheckoutResponse.total response = Order.total data.
Proof.
  intros Hret.
  destruct (checkout_Return _ _ _ _ Hret) as (ids & Hids & _ & _ & -> & ->).
  eexists ids, _, _. split_and!; try done.
  - simpl. apply Forall2_fmap_r, Forall_Forall2_diag, Forall_forall.
    intros ci _. simpl. unfold clamp. split; [done|lia].
  - simpl. apply Forall_fmap, Forall_forall. intros ci _. simpl.
    unfold clamp. lia.
  - apply Forall2_fmap_r, Forall_Forall2_diag, Forall_forall.
    intros ci _. split; [done|]. intros Hq. unfold line_amount, clamp.
    by rewrite Z.max_l by lia.
Qed.

(** C5, as the code has it: the total of the order is the accumulated
    total rounded to 2 decimal places to the nearest hundredth, and to
    the even hundredth when two are equally near (not rounded half up, and
    not truncated): a finite total [m * 2^e] becomes the double nearest to
    [n / 100], where [n] is an integer nearest to [100 * m * 2^e] and the
    even one on a tie; an infinite total or nan is kept. *)
Theorem checkout_total_rounds_half_even d payload response db' :
  checkout ObjectId str create_document payload (Some d) = (Return response, db') →
  ∃ ids order_items total,
    mapM ObjectId (CartItem.product_id <$> CheckoutRequest.items payload) = Some ids ∧
    price_lines (resolved str d ids) (CheckoutRequest.items payload) [] PyFloat.zero =
      Return (order_items, total) ∧
    Order.total (make_order order_items total payload) = CheckoutResponse.total response ∧
    CheckoutResponse.total response = PyFloat.round total 2 ∧
    match total with
    | S754_finite s m e =>
      ∃ n,
        PyFloat.nearest_even (Z.pos m * 10 ^ 2 * 2 ^ Z.max e 0) (2 ^ Z.max (- e) 0) n ∧
        CheckoutResponse.total response = PyFloat.of_decimal s n 2
    | _ => CheckoutResponse.total response = total
    end.
Proof.
  intros Hret.
  destruct (checkout_Return _ _ _ _ Hret) as (ids & Hids & Hvalid & Hrange & -> & _).
  eexists ids, _, _. split; [done|].
  split; [by apply price_lines_valid|].
  split_and!; try done. simpl. unfold sum_in_order.
  destruct (foldl _ _ _) as [s|s| |s m e]; try done.
  apply (round_finite s m e 2).
Qed.

(** C7: in a valid cart, a line whose product has no price is priced at
    [0.0]: [checkout] returns, the line of the order has price [0.0], and
    the amount the line adds to the total is [0.0]. *)
Theorem checkout_missing_price_is_zero d payload ids (i : nat) ci prod :
  mapM ObjectId (CartItem.product_id <$> CheckoutRequest.items payload) = Some ids →
  valid_cart (resolved str d ids) (CheckoutRequest.items payload) →
  Forall (line_in_range (resolved str d ids)) (CheckoutRequest.items payload) →
  CheckoutRequest.items payload !! i = Some ci →
  resolved str d ids !! CartItem.product_id ci = Some prod →
  Product.price prod.2 = None →
  ∃ data item,
    let stored := create_document "order" data (issue (Find "product" ids) d) in
    checkout ObjectId str create_document payload (Some d) =
      (Return {| CheckoutResponse.order_id := stored.1;
                 CheckoutResponse.total := Order.total data |},
       Some stored.2) ∧
    Order.items data !! i = Some item ∧
    OrderItem.price item = PyFloat.zero ∧
    line_amount (resolved str d ids) ci = PyFloat.zero ∧
    Order.total data =
      PyFloat.round
        (sum_in_order
           (line_amount (resolved str d ids) <$> CheckoutRequest.items payload)) 2.
Proof.
  intros Hids Hvalid Hrange Hi Hprod Hprice.
  rewrite (checkout_parsed _ _ _ Hids).
  rewrite (price_lines_valid _ _ _ _ Hvalid Hrange).
  assert (line_price (resolved str d ids) ci = PyFloat.zero) as Hzero.
  { unfold line_price, price_of. rewrite Hprod. simpl. by rewrite Hprice. }
  eexists _, (line_item (resolved str d ids) ci).
  split_and!; try reflexivity.
  - simpl. by rewrite list_lookup_fmap, Hi.
  - done.
  - unfold line_amount. rewrite Hzero.
    apply (Forall_lookup_1 _ _ _ _ Hrange) in Hi as [Hqty _].
    apply mul_zero_nearest; [unfold clamp; lia|done].
Qed.


(** C9: the same reference in two lines of a valid cart gives two lines of
    the order, each with the quantity of its own cart line: the order has
    as many lines as the cart, and the total is the rounded sum over all
    the lines of the cart, both of them included. *)
Theorem checkout_duplicate_lines d payload ids (i j : nat) ci cj :
  mapM ObjectId (CartItem.product_id <$> CheckoutRequest.items payload) = Some ids →
  valid_cart (resolved str d ids) (CheckoutRequest.items payload) →
  Forall (line_in_range (resolved str d ids)) (CheckoutRequest.items payload) →
  i ≠ j →
  CheckoutRequest.items payload !! i = Some ci →
  CheckoutRequest.items payload !! j = Some cj →
  CartItem.product_id ci = CartItem.product_id cj →
  ∃ data,
    let stored := create_document "order" data (issue (Find "product" ids) d) in
    checkout ObjectId str create_document payload (Some d) =
      (Return {| CheckoutResponse.order_id := stored.1;
                 CheckoutResponse.total := Order.total data |},
       Some stored.2) ∧
    length (Order.items data) = length (CheckoutRequest.items payload) ∧
    Order.items data !! i = Some (line_item (resolved str d ids) ci) ∧
    Order.items data !! j = Some (line_item (resolved str d ids) cj) ∧
    Order.total data =
      PyFloat.round
        (sum_in_order
           (line_amount (resolved str d ids) <$> CheckoutRequest.items payload)) 2.
Proof.
  intros Hids Hvalid Hrange _ Hi Hj _.
  rewrite (checkout_parsed _ _ _ Hids).
  rewrite (price_lines_valid _ _ _ _ Hvalid Hrange).
  eexists. split_and!; try reflexivity; simpl.
  - by rewrite length_fmap.
  - by rewrite list_lookup_fmap, Hi.
  - by rewrite list_lookup_fmap, Hj.
Qed.

(** ** Seeding *)

(** C10: seeding is guarded by emptiness.  On a product collection that is
    not empty [seed_products] answers [seeded = False] and only counts: the
    collections are unchanged.  On an empty one it inserts the three
    samples, each under a generated identifier, and answers
    [seeded = True] with count 3. *)
Theorem seed_products_guarded d :
  (product d ≠ [] →
   seed_products new_oid (Some d) =
   (Return {| SeedResponse.seeded := false;
              SeedResponse.message := Some "Products already exist";
              SeedResponse.count := None |},
    Some {| product := product d; order := order d;
            operations := operations d ++ [CountDocuments "product"];
            generated := generated d |})) ∧
  (product d = [] →
   ∃ d',
     seed_products new_oid (Some d) =
     (Return {| SeedResponse.seeded := true;
                SeedResponse.message := None;
                SeedResponse.count := Some 3 |}, Some d') ∧
     product d' =
       zip (new_oid <$> [generated d; S (generated d); S (S (generated d))]) samples ∧
     length (product d') = 3%nat ∧
     order d' = order d ∧
     operations d' = operations d ++
       CountDocuments "product" ::
       (InsertOne "product" <$> (fst <$> product d'))).
Proof.
  destruct d as [products orders ops n]. simpl.
  split; intros Hd; unfold seed_products, count_documents; simpl.
  - by destruct products.
  - subst products. simpl. eexists. split; [done|]. simpl.
    split_and!; try done. by rewrite <- !app_assoc.
Qed.

End Facts.

(** * Further properties of the handlers *)

(** ** Floats that are not negative *)



Lemma finite_nonneg_signed (f : PyFloat.float) :
  finite_nonneg f → PyFloat.signed false f.
Proof. by destruct f. Qed.

(** The double nearest to a positive integer in range is finite and not
    negative. *)
Lemma nearest_finite_nonneg (z : Z) :
  0 < z → in_float_range z → finite_nonneg (PyFloat.nearest z).
Proof.
  intros Hz [f Hf]. pose proof (nearest_signed z Hz) as Hs.
  unfold PyFloat.of_int in Hf.
  by destruct (PyFloat.nearest z).
Qed.

Lemma mul_nonneg (x y : PyFloat.float) :
  finite_nonneg x → finite_nonneg y → PyFloat.signed false (PyFloat.mul x y).
Proof.
  destruct x as [sx|sx| |sx mx ex], y as [sy|sy| |sy my ey]; simpl; try done.
  - by intros -> ->.
  - by intros -> ->.
  - by intros -> ->.
  - intros -> ->. by apply binary_round_aux_signed.
Qed.

Lemma add_nonneg (x y : PyFloat.float) :
  PyFloat.signed false x → PyFloat.signed false y →
  PyFloat.signed false (PyFloat.add x y).
Proof.
  destruct x as [sx|sx| |sx mx ex], y as [sy|sy| |sy my ey]; simpl; try done.
  - by intros -> ->.
  - by intros -> ->.
  - intros -> ->. unfold binary_normalize. simpl.
    unfold binary_round. destruct (shl_align _ _ _) as [mz ez].
    by apply binary_round_aux_signed.
Qed.

Lemma sum_nonneg (amounts : list PyFloat.float) (total : PyFloat.float) :
  PyFloat.signed false total →
  Forall (PyFloat.signed false) amounts →
  PyFloat.signed false (foldl PyFloat.add total amounts).
Proof.
  revert total. induction amounts as [|a amounts IH]; intros total Ht Ha; [done|].
  apply Forall_cons in Ha as [Ha Hrest]. simpl. apply IH; [|done].
  by apply add_nonneg.
Qed.

Lemma div_nonneg (m1 m2 : positive) :
  PyFloat.signed false
    (PyFloat.div (S754_finite false m1 0) (S754_finite false m2 0)).
Proof.
  unfold PyFloat.div, SFdiv, SFdiv_core_binary.
  set (s := _ - _ - _). set (m' := match s with Z.pos _ => _ | _ => _ end).
  assert (0 ≤ m') as Hm'.
  { unfold m'. destruct s; [lia| |lia]. apply Z.shiftl_nonneg. lia. }
  pose proof (Z.div_pos m' (Z.pos m2) Hm' ltac:(lia)) as Hq.
  unfold Z.div in Hq. destruct (Z.div_eucl m' (Z.pos m2)) as [q r].
  simpl in Hq. by apply binary_round_aux_signed.
Qed.

(** [round] keeps a float that is not negative so. *)
Lemma round_nonneg (x : PyFloat.float) (ndigits : N) :
  PyFloat.signed false x → PyFloat.signed false (PyFloat.round x ndigits).
Proof.
  destruct x as [s|s| |s m e]; simpl; try done.
  intros ->. destruct (PyFloat.scaled m e ndigits) as [num den].
  unfold PyFloat.of_decimal.
  destruct (PyFloat.round_half_even num den); [done| |done].
  apply div_nonneg.
Qed.

Section MoreFacts.

Context {oid : Type} `{EqDecision oid}.
Variable ObjectId : string → option oid.
Variable str : oid → string.
Variable new_oid : nat → oid.
Variable create_document : string → Order.t → Database oid → string * Database oid.

Implicit Types (d : Database oid) (payload : CheckoutRequest.t).
Implicit Types (product_map : gmap string (oid * Product.t)).
Implicit Types (items : list CartItem.t) (ci : CartItem.t).

(** ** What [checkout] raises *)



(** X2: the order [checkout] hands to [create_document] carries the
    customer name, email and address of the request as they came, and one
    line per cart line, with the references of the cart in the order of
    the cart. *)
Theorem checkout_passes_request_through d payload response db' :
  checkout ObjectId str create_document payload (Some d) = (Return response, db') →
  ∃ ids data,
    db' = Some (create_document "order" data (issue (Find "product" ids) d)).2 ∧
    CheckoutResponse.order_id response =
      (create_document "order" data (issue (Find "product" ids) d)).1 ∧
    Order.customer_name data = CheckoutRequest.customer_name payload ∧
    Order.email data = CheckoutRequest.email payload ∧
    Order.address data = CheckoutRequest.address payload ∧
    OrderItem.product_id <$> Order.items data =
      CartItem.product_id <$> CheckoutRequest.items payload.
Proof.
  intros Hret.
  destruct (checkout_Return _ _ _ _ _ _ _ Hret) as (ids & _ & _ & _ & -> & ->).
  eexists ids, _. split_and!; try done.
  simpl. by rewrite <- list_fmap_compose.
Qed.

(** ** Which references resolve *)

Lemma fill_product_map_fold (found : list (oid * Product.t)) product_map (s : string) :
  is_Some (foldl (λ product_map p, <[str p.1 := p]> product_map) product_map found !! s) ↔
  is_Some (product_map !! s) ∨ ∃ p, p ∈ found ∧ str p.1 = s.
Proof.
  revert product_map. induction found as [|x found IH]; intros product_map; simpl.
  - split; [by left|]. intros [?|(p & Hp & _)]; [done|]. by apply elem_of_nil in Hp.
  - rewrite IH. rewrite lookup_insert_is_Some'. split.
    + intros [[Hx|?]|(p & Hp & Hs)].
      * right. exists x. split; [by left|done].
      * by left.
      * right. exists p. split; [by right|done].
    + intros [?|(p & Hp & Hs)]; [by left; right|].
      apply elem_of_cons in Hp as [->|Hp].
      * left. by left.
      * right. by exists p.
Qed.

Lemma fill_product_map_keep (found : list (oid * Product.t)) product_map (s : string) :
  s ∉ (str ∘ fst <$> found) →
  foldl (λ product_map p, <[str p.1 := p]> product_map) product_map found !! s =
  product_map !! s.
Proof.
  revert product_map. induction found as [|x found IH]; intros product_map Hs; [done|].
  simpl. simpl in Hs. apply not_elem_of_cons in Hs as [Hx Hs].
  rewrite IH by done. by rewrite lookup_insert_ne.
Qed.

Lemma fill_product_map_exact (found : list (oid * Product.t)) (p : oid * Product.t) :
  NoDup (str ∘ fst <$> found) → p ∈ found →
  fill_product_map str found !! str p.1 = Some p.
Proof.
  unfold fill_product_map. generalize (∅ : gmap string (oid * Product.t)).
  induction found as [|x found IH]; intros product_map Hdup Hp.
  - by apply elem_of_nil in Hp.
  - simpl in Hdup. apply NoDup_cons in Hdup as [Hx Hdup]. simpl.
    apply elem_of_cons in Hp as [->|Hp].
    + rewrite fill_product_map_keep by done. by rewrite lookup_insert_eq.
    + by apply IH.
Qed.

Lemma NoDup_keys_filter (P : oid * Product.t → Prop) `{∀ p, Decision (P p)}
    (l : list (oid * Product.t)) :
  NoDup (str ∘ fst <$> l) → NoDup (str ∘ fst <$> filter P l).
Proof.
  induction l as [|x l IH]; intros Hdup; [done|].
  simpl in Hdup. apply NoDup_cons in Hdup as [Hx Hdup].
  rewrite filter_cons. destruct (decide (P x)); [|by apply IH].
  simpl. apply NoDup_cons. split; [|by apply IH].
  intros Hin. apply Hx. apply list_elem_of_fmap in Hin as (y & Hy & Hin).
  apply list_elem_of_filter in Hin as [_ Hin].
  apply list_elem_of_fmap. by exists y.
Qed.

(** A stored product that was asked for is in the product map, under the
    text of its identifier. *)
Lemma resolved_stored d (ids : list oid) (p : oid * Product.t) :
  p ∈ product d → p.1 ∈ ids → is_Some (resolved str d ids !! str p.1).
Proof.
  intros Hp Hid. unfold resolved, fill_product_map, find. simpl.
  apply fill_product_map_fold. right. exists p. split; [|done].
  by apply list_elem_of_filter.
Qed.

(** X3: a reference of the cart resolves exactly when it is the text of
    the identifier of a stored product whose identifier is among those
    parsed from the cart; the reference itself is compared, not what it
    parses to. *)
Theorem resolved_is_Some d (ids : list oid) (s : string) :
  is_Some (resolved str d ids !! s) ↔
  ∃ p, p ∈ product d ∧ p.1 ∈ ids ∧ str p.1 = s.
Proof.
  split.
  - intros [p Hp]. exists p. by apply resolved_lookup.
  - intros (p & Hp & Hid & <-). by apply resolved_stored.
Qed.

(** X4: in a product collection where no two documents have identifiers
    with the same text, a reference that is the text of the identifier of
    a stored product, the identifier being among those parsed from the
    cart, resolves to that very document. *)
Theorem resolved_exact d (ids : list oid) (p : oid * Product.t) :
  NoDup (str ∘ fst <$> product d) →
  p ∈ product d → p.1 ∈ ids →
  resolved str d ids !! str p.1 = Some p.
Proof.
  intros Hdup Hp Hid. unfold resolved, find. simpl.
  apply fill_product_map_exact.
  - by apply NoDup_keys_filter.
  - by apply list_elem_of_filter.
Qed.

(** X5: identifiers that print and parse back, a reference that parses
    to an identifier but is not how that identifier prints (another
    spelling of it) does not resolve, although the product it denotes may
    be in the store and was looked up: [checkout] raises and
    [create_document] is not reached. *)
Theorem checkout_other_spelling_not_found d payload ids ci (i : oid) :
  (∀ p, p ∈ product d → ObjectId (str p.1) = Some p.1) →
  mapM ObjectId (CartItem.product_id <$> CheckoutRequest.items payload) = Some ids →
  ci ∈ CheckoutRequest.items payload →
  ObjectId (CartItem.product_id ci) = Some i →
  str i ≠ CartItem.product_id ci →
  resolved str d ids !! CartItem.product_id ci = None ∧
  ∃ e,
    checkout ObjectId str create_document payload (Some d) =
    (Raise e, Some (issue (Find "product" ids) d)).
Proof.
  intros Hround Hids Hci Hi Hne.
  assert (resolved str d ids !! CartItem.product_id ci = None) as Hnone.
  { destruct (resolved str d ids !! CartItem.product_id ci) as [p|] eqn:Hp; [|done].
    destruct (resolved_lookup _ _ _ _ _ Hp) as (Hin & _ & Hs).
    specialize (Hround p Hin). rewrite Hs, Hi in Hround.
    injection Hround as ->. done. }
  split; [done|].
  rewrite (checkout_parsed _ _ _ _ _ _ Hids).
  destruct (price_lines_absent (resolved str d ids) (CheckoutRequest.items payload)
    [] PyFloat.zero) as [e He].
  { apply Exists_exists. by exists ci. }
  exists e. by rewrite He.
Qed.

(** X6: a quantity too large for a float stops [checkout] with the
    [OverflowError] of the conversion: the lines before it resolving and
    being in range, and the product of the line having a price, the
    exception is raised at that line and [create_document] is not
    reached. *)
Theorem checkout_quantity_overflow d payload ids before ci after prod price :
  mapM ObjectId (CartItem.product_id <$> CheckoutRequest.items payload) = Some ids →
  CheckoutRequest.items payload = before ++ ci :: after →
  valid_cart (resolved str d ids) before →
  Forall (line_in_range (resolved str d ids)) before →
  resolved str d ids !! CartItem.product_id ci = Some prod →
  float (default (Product.Int 0) (Product.price prod.2)) = Return price →
  PyFloat.of_int (Z.max 1 (CartItem.quantity ci)) = None →
  checkout ObjectId str create_document payload (Some d) =
  (Raise (OverflowError "int too large to convert to float"),
   Some (issue (Find "product" ids) d)).
Proof.
  intros Hids Hitems Hvalid Hrange Hprod Hprice Hover.
  rewrite (checkout_parsed _ _ _ _ _ _ Hids), Hitems.
  rewrite price_lines_app by done. simpl.
  rewrite Hprod, Hprice. simpl. unfold mul_int. simpl. by rewrite Hover.
Qed.

(** X7: when every stored product has a price that is finite and not
    negative, or none, the total [checkout] answers is not negative and
    not nan. *)
Theorem checkout_total_not_negative d payload response db' :
  (∀ p, p ∈ product d → finite_nonneg (price_of p.2)) →
  checkout ObjectId str create_document payload (Some d) = (Return response, db') →
  PyFloat.signed false (CheckoutResponse.total response).
Proof.
  intros Hprices Hret.
  destruct (checkout_Return _ _ _ _ _ _ _ Hret)
    as (ids & _ & Hvalid & Hrange & -> & _).
  simpl. apply round_nonneg. apply sum_nonneg; [done|].
  apply Forall_fmap, Forall_forall. intros ci Hci. simpl.
  apply (proj1 (Forall_forall _ _) Hvalid) in Hci as Hprod.
  apply (proj1 (Forall_forall _ _) Hrange) in Hci as [Hqty _].
  destruct Hprod as [prod Hprod].
  unfold line_amount, line_price. rewrite Hprod. simpl.
  apply mul_nonneg.
  - apply Hprices. by destruct (resolved_lookup _ _ _ _ _ Hprod).
  - apply nearest_finite_nonneg; [unfold clamp; lia|done].
Qed.

(** ** Seeding twice *)

(** X8: after [seed_products] on a configured database the product
    collection is not empty and the order collection is as before, so a
    second call finds products, answers [seeded = False] and only counts:
    seeding twice leaves the collections as seeding once. *)
Theorem seed_products_twice d :
  ∃ response d1,
    seed_products new_oid (Some d) = (Return response, Some d1) ∧
    product d1 ≠ [] ∧
    order d1 = order d ∧
    (product d ≠ [] → product d1 = product d) ∧
    seed_products new_oid (Some d1) =
    (Return {| SeedResponse.seeded := false;
               SeedResponse.message := Some "Products already exist";
               SeedResponse.count := None |},
     Some (issue (CountDocuments "product") d1)).
Proof.
  destruct d as [products orders ops n].
  unfold seed_products, count_documents. simpl.
  destruct products as [|p products]; simpl.
  - eexists _, _. split_and!; try done.
  - eexists _, _. split_and!; try done.
Qed.

End MoreFacts.

Section DocumentFacts.

Context {oid : Type} `{EqDecision oid}.
Variable ObjectId : string → option oid.
Variable str : oid → string.
Variable str_number : Product.number → string.
Variable create_document : string → Order.t → Database oid → string * Database oid.

Implicit Types (d : Database oid) (doc : gmap string (value oid)).
Implicit Types (p : oid * Product.t).

(** ** [serialize] *)

Lemma serialize_with_id doc (v : value oid) :
  doc !! "_id" = Some v →
  serialize str str_number doc =
  <[ "id" := Text (str_value str str_number v) ]> (delete "_id" doc).
Proof.
  intros Hid. unfold serialize.
  destruct (decide (doc = ∅)) as [->|_]; [by rewrite lookup_empty in Hid|].
  by rewrite Hid.
Qed.

Lemma serialize_without_id doc :
  doc !! "_id" = None → serialize str str_number doc = doc.
Proof.
  intros Hnone. unfold serialize. destruct (decide _); [done|]. by rewrite Hnone.
Qed.

Lemma serialize_lookup doc (v : value oid) (key : string) :
  doc !! "_id" = Some v → key ≠ "_id" → key ≠ "id" →
  serialize str str_number doc !! key = doc !! key.
Proof.
  intros Hid H1 H2. rewrite (serialize_with_id _ _ Hid).
  rewrite lookup_insert_ne by done. by rewrite lookup_delete_ne.
Qed.

(** X9: [serialize] on a document that has an [_id]: the result has no
    [_id], has the text of the identifier under [id] (a value the document
    had under [id] is replaced), and every other key is as in the
    document. *)
Theorem serialize_moves_id doc (v : value oid) :
  doc !! "_id" = Some v →
  serialize str str_number doc !! "_id" = None ∧
  serialize str str_number doc !! "id" = Some (Text (str_value str str_number v)) ∧
  ∀ key : string, key ≠ "_id" → key ≠ "id" →
    serialize str str_number doc !! key = doc !! key.
Proof.
  intros Hid. split_and!.
  - rewrite (serialize_with_id _ _ Hid).
    rewrite lookup_insert_ne by done. apply lookup_delete_eq.
  - rewrite (serialize_with_id _ _ Hid). apply lookup_insert_eq.
  - intros key H1 H2. by apply (serialize_lookup _ v).
Qed.

(** X10: the result of [serialize] never has an [_id]; a document without
    [_id], the empty one among them, is returned as it is; and
    serializing twice is serializing once. *)
Theorem serialize_idempotent doc :
  serialize str str_number doc !! "_id" = None ∧
  (doc !! "_id" = None → serialize str str_number doc = doc) ∧
  serialize str str_number (serialize str str_number doc) = serialize str str_number doc.
Proof.
  assert (serialize str str_number doc !! "_id" = None) as Hnone.
  { destruct (doc !! "_id") as [v|] eqn:Hid.
    - rewrite (serialize_with_id _ _ Hid).
      rewrite lookup_insert_ne by done. apply lookup_delete_eq.
    - by rewrite serialize_without_id. }
  split_and!; [done|apply serialize_without_id|by apply serialize_without_id].
Qed.

(** ** [list_products] *)

Lemma field_lookup (key k : string) (v : option (value oid)) :
  field key v !! k = if decide (key = k) then v else None.
Proof.
  unfold field. destruct v as [v|]; simpl.
  - destruct (decide (key = k)) as [->|Hne].
    + apply lookup_singleton_eq.
    + by apply lookup_singleton_ne.
  - rewrite lookup_empty. by destruct (decide _).
Qed.

(** The keys of a stored document. *)
Lemma document_lookup p :
  document p !! "_id" = Some (Id p.1) ∧
  document p !! "id" = None ∧
  document p !! "title" = Text <$> Product.title p.2 ∧
  document p !! "description" = Text <$> Product.description p.2 ∧
  document p !! "price" = Number <$> Product.price p.2 ∧
  document p !! "category" = Text <$> Product.category p.2 ∧
  document p !! "in_stock" = Boolean <$> Product.in_stock p.2 ∧
  document p !! "image" = Text <$> Product.image p.2.
Proof.
  unfold document.
  split_and!.
  all: rewrite !lookup_union.
  all: rewrite !field_lookup.
  all: repeat first
    [ rewrite lookup_singleton_eq
    | rewrite lookup_singleton_ne by done
    | rewrite decide_True by done
    | rewrite decide_False by done ].
  all: repeat match goal with
       | |- context [_ <$> ?o] =>
         lazymatch o with Some _ => fail | None => fail | _ => destruct o end
       end.
  all: done.
Qed.

(** X11: [list_products] on a configured database leaves it as it is and
    lists the first 50 products in stored order, no more: the k-th item,
    for k below 50, is the k-th stored product with the text of its
    identifier under [id], no [_id], and its fields as stored. *)
Theorem list_products_first_50 d :
  ∃ items,
    list_products str str_number (Some d) =
      (Return {| ProductList.items := items |}, Some d) ∧
    length items = min 50 (length (product d)) ∧
    ∀ (k : nat) p, (k < 50)%nat → product d !! k = Some p →
      ∃ doc,
        items !! k = Some doc ∧
        doc !! "id" = Some (Text (str p.1)) ∧
        doc !! "_id" = None ∧
        doc !! "title" = Text <$> Product.title p.2 ∧
        doc !! "description" = Text <$> Product.description p.2 ∧
        doc !! "price" = Number <$> Product.price p.2 ∧
        doc !! "category" = Text <$> Product.category p.2 ∧
        doc !! "in_stock" = Boolean <$> Product.in_stock p.2 ∧
        doc !! "image" = Text <$> Product.image p.2.
Proof.
  eexists. split; [reflexivity|]. split.
  - by rewrite !length_fmap, length_take.
  - intros k p Hk Hp.
    exists (serialize str str_number (document p)). split.
    + rewrite !list_lookup_fmap, lookup_take_lt by done. by rewrite Hp.
    + destruct (document_lookup p) as (Hid & _ & Ht & Hd & Hpr & Hc & Hs & Hi).
      split_and!.
      * rewrite (serialize_with_id _ _ Hid). apply lookup_insert_eq.
      * rewrite (serialize_with_id _ _ Hid).
        rewrite lookup_insert_ne by done. apply lookup_delete_eq.
      * by rewrite (serialize_lookup _ _ _ Hid).
      * by rewrite (serialize_lookup _ _ _ Hid).
      * by rewrite (serialize_lookup _ _ _ Hid).
      * by rewrite (serialize_lookup _ _ _ Hid).
      * by rewrite (serialize_lookup _ _ _ Hid).
      * by rewrite (serialize_lookup _ _ _ Hid).
Qed.

(** X12: what [list_products] lists can be ordered: identifiers that print
    and parse back, a cart whose references are all [id] values of listed
    items parses and is valid for [checkout], which returns when the
    numbers of the cart are in the range of floats. *)
Theorem listed_products_can_be_ordered d payload items :
  (∀ p, p ∈ product d → ObjectId (str p.1) = Some p.1) →
  list_products str str_number (Some d) =
    (Return {| ProductList.items := items |}, Some d) →
  Forall (λ ci, ∃ doc, doc ∈ items ∧ doc !! "id" = Some (Text (CartItem.product_id ci)))
    (CheckoutRequest.items payload) →
  ∃ ids,
    mapM ObjectId (CartItem.product_id <$> CheckoutRequest.items payload) = Some ids ∧
    valid_cart (resolved str d ids) (CheckoutRequest.items payload) ∧
    (Forall (line_in_range (resolved str d ids)) (CheckoutRequest.items payload) →
     ∃ response db',
       checkout ObjectId str create_document payload (Some d) = (Return response, db')).
Proof.
  intros Hround Hlist Hcart. injection Hlist as <-.
  assert (∀ ci, ci ∈ CheckoutRequest.items payload →
    ∃ p, p ∈ product d ∧ str p.1 = CartItem.product_id ci) as Hstored.
  { intros ci Hci. apply (proj1 (Forall_forall _ _) Hcart) in Hci as (doc & Hdoc & Hid).
    apply list_elem_of_fmap in Hdoc as (doc' & -> & Hdoc).
    apply list_elem_of_fmap in Hdoc as (p & -> & Hp).
    apply list_elem_of_lookup in Hp as [k Hp].
    apply lookup_take_Some in Hp as [Hp _].
    apply list_elem_of_lookup_2 in Hp.
    destruct (document_lookup p) as (Hid' & _).
    rewrite (serialize_with_id _ _ Hid'), lookup_insert_eq in Hid.
    simpl in Hid. exists p. split; [done|congruence]. }
  destruct (mapM ObjectId (CartItem.product_id <$> CheckoutRequest.items payload))
    as [ids|] eqn:Hids.
  - exists ids. split; [done|].
    assert (valid_cart (resolved str d ids) (CheckoutRequest.items payload)) as Hvalid.
    { apply Forall_forall. intros ci Hci.
      destruct (Hstored ci Hci) as (p & Hp & Hs).
      rewrite <- Hs. apply resolved_stored; [done|].
      apply mapM_Some in Hids.
      apply list_elem_of_lookup in Hci as [k Hk].
      destruct (Forall2_lookup_l _ _ _ k (CartItem.product_id ci) Hids)
        as (i & Hi & Hparse).
      { by rewrite list_lookup_fmap, Hk. }
      rewrite <- Hs, (Hround p Hp) in Hparse. injection Hparse as <-.
      by apply list_elem_of_lookup_2 in Hi. }
    split; [done|]. intros Hrange.
    rewrite (checkout_parsed _ _ _ _ _ _ Hids).
    rewrite (price_lines_valid _ _ _ _ Hvalid Hrange). by eexists _, _.
  - exfalso. apply mapM_None in Hids. apply Exists_exists in Hids as (s & Hs & Hnone).
    apply list_elem_of_fmap in Hs as (ci & -> & Hci).
    destruct (Hstored ci Hci) as (p & Hp & Hstr).
    rewrite <- Hstr, (Hround p Hp) in Hnone. done.
Qed.

End DocumentFacts.

Section DiagnosticFacts.

Context {oid : Type}.
Variable name : Database oid → option string.
Variable list_collection_names : Database oid → string + list string.
Variable getenv : string → option string.
Variable first_50 : string → string.

Lemma is_set_true (v : option string) :
  is_set v = true ↔ ∃ s, v = Some s ∧ s ≠ "".
Proof.
  unfold is_set. destruct v as [s|]; simpl.
  - rewrite negb_true_iff, String.eqb_neq. split.
    + intros Hs. by exists s.
    + by intros (s' & [= <-] & Hs).
  - split; [done|]. by intros (s & ? & _).
Qed.

(** X13: [test_database] reports [database_url] and [database_name] from
    the environment alone, whatever the database: "Set" exactly when the
    variable is there and not empty, "Not Set" otherwise; the name of the
    database is never in the answer. *)
Theorem test_database_environment (db : option (Database oid)) :
  let response := test_database name list_collection_names getenv first_50 db in
  StatusResponse.database_url response =
    Some (if is_set (getenv "DATABASE_URL") then "✅ Set" else "❌ Not Set") ∧
  StatusResponse.database_name response =
    Some (if is_set (getenv "DATABASE_NAME") then "✅ Set" else "❌ Not Set") ∧
  (StatusResponse.database_name response = Some "✅ Set" ↔
   ∃ s, getenv "DATABASE_NAME" = Some s ∧ s ≠ "") ∧
  (StatusResponse.database_url response = Some "✅ Set" ↔
   ∃ s, getenv "DATABASE_URL" = Some s ∧ s ≠ "").
Proof.
  assert (∀ v, Some (if is_set v then "✅ Set" else "❌ Not Set") = Some "✅ Set" ↔
               ∃ s, v = Some s ∧ s ≠ "") as Hset.
  { intros v. rewrite <- is_set_true. by destruct (is_set v). }
  unfold test_database.
  destruct db as [d|]; [destruct (list_collection_names d)|]; simpl;
    split_and!; try done; apply Hset.
Qed.

(** X14: the status [test_database] reports: the backend is always
    running; the connection is "Connected" exactly when a database is
    configured; the database is "Connected & Working" exactly when a
    database is configured and lists its collections, and is never left
    at "Not Available"; and the collections reported are the first 10
    listed, none otherwise. *)
Theorem test_database_status (db : option (Database oid)) :
  let response := test_database name list_collection_names getenv first_50 db in
  StatusResponse.backend response = "✅ Running" ∧
  (StatusResponse.connection_status response = "Connected" ↔ is_Some db) ∧
  (StatusResponse.database response = "✅ Connected & Working" ↔
   ∃ d names, db = Some d ∧ list_collection_names d = inr names) ∧
  StatusResponse.database response ≠ "❌ Not Available" ∧
  (length (StatusResponse.collections response) ≤ 10)%nat ∧
  StatusResponse.collections response =
    match db with
    | Some d =>
      match list_collection_names d with
      | inr names => take 10 names
      | inl _ => []
      end
    | None => []
    end.
Proof.
  unfold test_database.
  destruct db as [d|]; [destruct (list_collection_names d) as [e|names] eqn:Hnames|];
    simpl.
  - split_and!; [done| | |discriminate|lia|done].
    + split; [done|]. intros _. by eexists.
    + split; [discriminate|]. intros (d' & names & [= <-] & Hn). congruence.
  - split_and!; [done| | |discriminate| |done].
    + split; [done|]. intros _. by eexists.
    + split; [|done]. intros _. by eexists _, _.
    + rewrite length_take. lia.
  - split_and!; [done| | |discriminate|lia|done].
    + split; [discriminate|]. by intros [? ?].
    + split; [discriminate|]. by intros (? & ? & ? & _).
Qed.

End DiagnosticFacts.

(** * The handlers on concrete requests *)

(** The catalogue is what [seed_products] makes of the empty database, and
    two more insertions. *)
Example catalogue_seeded :
  Hex24.seed_products (Some Hex24.empty) =
  (Return {| SeedResponse.seeded := true;
             SeedResponse.message := None;
             SeedResponse.count := Some 3 |},
   Some (foldl (λ d p, insert_one Hex24.new_oid p d)
           (issue (CountDocuments "product") Hex24.empty) samples)).
Proof. reflexivity. Qed.

(** One charger twice: 998.0. *)
Example checkout_two_chargers :
  (Hex24.checkout (Hex24.cart [(Hex24.charger_id, 2)]) (Some Hex24.catalogue)).1 =
  Return {| CheckoutResponse.order_id := "000000000000000000000005";
            CheckoutResponse.total := S754_finite false 8778500836163584 (-43) |}.
Proof. run. Qed.

(** A cable and three inflators: 129.0 + 177.0 = 306.0. *)
Lemma checkout_total_is_rounded_sum_witness :
  ∃ data,
    Hex24.checkout (Hex24.cart [(Hex24.cable_id, 1); (Hex24.inflator_id, 3)])
      (Some Hex24.catalogue) =
    (Return {| CheckoutResponse.order_id := "000000000000000000000005";
               CheckoutResponse.total := Order.total data |},
     Some (Hex24.create_document "order" data
             (issue (Find "product" [Hex24.cable_id; Hex24.inflator_id])
                Hex24.catalogue)).2) ∧
    Some (Order.total data) = PyFloat.of_int 306.
Proof.
  destruct (checkout_total_is_rounded_sum Hex24.ObjectId Hex24.str
    Hex24.create_document Hex24.catalogue
    (Hex24.cart [(Hex24.cable_id, 1); (Hex24.inflator_id, 3)])
    [Hex24.cable_id; Hex24.inflator_id])
    as (data & Hrun & Htotal).
  - run.
  - all_resolve.
  - all_in_range.
  - exists data. split; [exact Hrun|]. rewrite Htotal. run.
Defined.

(** A reference that parses and is not in the store. *)
Example checkout_unknown_product :
  (Hex24.checkout (Hex24.cart [(Hex24.cable_id, 1); (Hex24.unknown_id, 3)])
     (Some Hex24.catalogue)).1 =
  Raise (HTTPException 400 "Product not found: 00000000000000000000000a").
Proof. run. Qed.


(** A reference that is no identifier. *)
Lemma checkout_invalid_product_id_witness :
  Hex24.checkout (Hex24.cart [(Hex24.cable_id, 1); ("P1", 3)]) (Some Hex24.catalogue) =
  (Raise (HTTPException 400 "Invalid product id"), Some Hex24.catalogue).
Proof.
  apply (checkout_invalid_product_id Hex24.ObjectId Hex24.str
    Hex24.create_document Hex24.catalogue
    (Hex24.cart [(Hex24.cable_id, 1); ("P1", 3)])).
  apply Exists_cons_tl, Exists_cons_hd. run.
Defined.

(** A charger asked with quantity 0 is sold once: 499.0. *)
Lemma checkout_clamps_quantity_witness :
  ∃ data,
    (Hex24.checkout (Hex24.cart [(Hex24.charger_id, 0)]) (Some Hex24.catalogue)).2 =
      Some (Hex24.create_document "order" data
              (issue (Find "product" [Hex24.charger_id]) Hex24.catalogue)).2 ∧
    Forall (λ item, 1 ≤ OrderItem.quantity item) (Order.items data) ∧
    Some (Order.total data) = PyFloat.of_int 499.
Proof.
  destruct (checkout_clamps_quantity Hex24.ObjectId Hex24.str
    Hex24.create_document Hex24.catalogue (Hex24.cart [(Hex24.charger_id, 0)])
    {| CheckoutResponse.order_id := "000000000000000000000005";
       CheckoutResponse.total := S754_finite false 8778500836163584 (-44) |}
    (Hex24.checkout (Hex24.cart [(Hex24.charger_id, 0)]) (Some Hex24.catalogue)).2)
    as (ids & data & amounts & Hids & Hdb & _ & Hge & _ & _ & Hresponse).
  - run.
  - vm_compute in Hids. injection Hids as <-.
    exists data. split_and!; [exact Hdb|exact Hge|].
    rewrite <- Hresponse. run.
Defined.

(** A clip at 0.125 is charged 0.12. *)
Lemma checkout_total_rounds_half_even_witness :
  ∃ total,
    CheckoutResponse.total
      {| CheckoutResponse.order_id := "000000000000000000000005";
         CheckoutResponse.total := S754_finite false 8646911284551352 (-56) |} =
    PyFloat.round total 2.
Proof.
  destruct (checkout_total_rounds_half_even Hex24.ObjectId Hex24.str
    Hex24.create_document Hex24.catalogue (Hex24.cart [(Hex24.clip_id, 1)])
    {| CheckoutResponse.order_id := "000000000000000000000005";
       CheckoutResponse.total := S754_finite false 8646911284551352 (-56) |}
    (Hex24.checkout (Hex24.cart [(Hex24.clip_id, 1)]) (Some Hex24.catalogue)).2)
    as (ids & order_items & total & _ & _ & _ & Hround & _).
  - run.
  - exists total. exact Hround.
Defined.

(** C5, as stated, fails: the clip at 0.125 accumulates a total of exactly
    0.125, which rounds to 0.13 half up, and [checkout] answers 0.12. *)
Lemma checkout_total_not_half_up :
  ∃ response d' order_items total,
    Hex24.checkout (Hex24.cart [(Hex24.clip_id, 1)]) (Some Hex24.catalogue) =
      (Return response, Some d') ∧
    price_lines (resolved Hex24.str Hex24.catalogue [Hex24.clip_id])
      (CheckoutRequest.items (Hex24.cart [(Hex24.clip_id, 1)])) [] PyFloat.zero =
      Return (order_items, total) ∧
    total = S754_finite false 4503599627370496 (-55) ∧
    CheckoutResponse.total response = S754_finite false 8646911284551352 (-56) ∧
    PyFloat.round_ties_up total 2 = S754_finite false 4683743612465316 (-55) ∧
    CheckoutResponse.total response ≠ PyFloat.round_ties_up total 2.
Proof.
  eexists _, _, _, _. split_and!.
  - vm_compute. reflexivity.
  - vm_compute. reflexivity.
  - reflexivity.
  - reflexivity.
  - vm_compute. reflexivity.
  - vm_compute. discriminate.
Qed.

(** A leaflet without a price, twice, and a cable: 0.0 + 129.0. *)
Lemma checkout_missing_price_is_zero_witness :
  ∃ data item,
    (Hex24.checkout (Hex24.cart [(Hex24.leaflet_id, 2); (Hex24.cable_id, 1)])
       (Some Hex24.catalogue)).1 =
    Return {| CheckoutResponse.order_id := "000000000000000000000005";
              CheckoutResponse.total := Order.total data |} ∧
    Order.items data !! 0%nat = Some item ∧
    OrderItem.price item = PyFloat.zero ∧
    Some (Order.total data) = PyFloat.of_int 129.
Proof.
  destruct (checkout_missing_price_is_zero Hex24.ObjectId Hex24.str
    Hex24.create_document Hex24.catalogue
    (Hex24.cart [(Hex24.leaflet_id, 2); (Hex24.cable_id, 1)])
    [Hex24.leaflet_id; Hex24.cable_id] 0
    {| CartItem.product_id := Hex24.leaflet_id; CartItem.quantity := 2 |}
    (Hex24.leaflet_id, Hex24.leaflet))
    as (data & item & Hrun & Hitem & Hprice & _ & Htotal).
  - run.
  - all_resolve.
  - all_in_range.
  - reflexivity.
  - run.
  - reflexivity.
  - exists data, item. split_and!; [|exact Hitem|exact Hprice|].
    + unfold Hex24.checkout. by rewrite Hrun.
    + rewrite Htotal. run.
Defined.


(** A cable, three inflators, and the cable again twice:
    129.0 + 177.0 + 258.0 = 564.0, in three lines. *)
Lemma checkout_duplicate_lines_witness :
  ∃ data,
    (Hex24.checkout
       (Hex24.cart [(Hex24.cable_id, 1); (Hex24.inflator_id, 3); (Hex24.cable_id, 2)])
       (Some Hex24.catalogue)).1 =
    Return {| CheckoutResponse.order_id := "000000000000000000000005";
              CheckoutResponse.total := Order.total data |} ∧
    length (Order.items data) = 3%nat ∧
    Some (Order.total data) = PyFloat.of_int 564.
Proof.
  destruct (checkout_duplicate_lines Hex24.ObjectId Hex24.str
    Hex24.create_document Hex24.catalogue
    (Hex24.cart [(Hex24.cable_id, 1); (Hex24.inflator_id, 3); (Hex24.cable_id, 2)])
    [Hex24.cable_id; Hex24.inflator_id; Hex24.cable_id] 0 2
    {| CartItem.product_id := Hex24.cable_id; CartItem.quantity := 1 |}
    {| CartItem.product_id := Hex24.cable_id; CartItem.quantity := 2 |})
    as (data & Hrun & Hlen & _ & _ & Htotal).
  - run.
  - all_resolve.
  - all_in_range.
  - discriminate.
  - reflexivity.
  - reflexivity.
  - reflexivity.
  - exists data. split_and!; [|exact Hlen|].
    + unfold Hex24.checkout. by rewrite Hrun.
    + rewrite Htotal. run.
Defined.

(** A cable is ordered at 129.0, its price becomes 0.125, and a cable is
    ordered again: the first order still says 129.0, the second 0.12. *)
Example checkout_before_and_after_a_price_change :
  ∃ d1 d2,
    (Hex24.checkout (Hex24.cart [(Hex24.cable_id, 1)]) (Some Hex24.catalogue)).2 =
      Some d1 ∧
    (Hex24.checkout (Hex24.cart [(Hex24.cable_id, 1)])
       (Some (update_product Hex24.cable_id Hex24.reprice d1))).2 = Some d2 ∧
    Some <$> (Order.total ∘ snd <$> order d2) =
      [PyFloat.of_int 129; Some (S754_finite false 8646911284551352 (-56))].
Proof.
  eexists _, _. split_and!.
  - vm_compute. reflexivity.
  - vm_compute. reflexivity.
  - vm_compute. reflexivity.
Qed.

(** * Further runs *)


(** The order of a cable and an inflator names Ada and the two
    references. *)
Lemma checkout_passes_request_through_witness :
  ∃ data,
    Order.customer_name data = "Ada" ∧
    Order.email data = "ada@example.org" ∧
    Order.address data = "1 Main Street" ∧
    OrderItem.product_id <$> Order.items data = [Hex24.cable_id; Hex24.inflator_id].
Proof.
  destruct (checkout_passes_request_through Hex24.ObjectId Hex24.str
    Hex24.create_document Hex24.catalogue
    (Hex24.cart [(Hex24.cable_id, 1); (Hex24.inflator_id, 3)])
    {| CheckoutResponse.order_id := "000000000000000000000005";
       CheckoutResponse.total := S754_finite false 5383208929591296 (-44) |}
    (Hex24.checkout (Hex24.cart [(Hex24.cable_id, 1); (Hex24.inflator_id, 3)])
       (Some Hex24.catalogue)).2)
    as (ids & data & _ & _ & Hname & Hemail & Haddress & Hrefs).
  - run.
  - exists data. split_and!; [exact Hname|exact Hemail|exact Haddress|exact Hrefs].
Defined.

(** The clip of the catalogue, asked for with a cable. *)
Lemma resolved_exact_witness :
  resolved Hex24.str Hex24.catalogue [Hex24.cable_id; Hex24.clip_id] !! Hex24.clip_id =
  Some (Hex24.clip_id, Hex24.clip).
Proof.
  apply (resolved_exact Hex24.str Hex24.catalogue
    [Hex24.cable_id; Hex24.clip_id] (Hex24.clip_id, Hex24.clip)).
  - apply (bool_decide_unpack _). vm_compute. exact I.
  - apply list_elem_of_lookup. exists 3%nat. reflexivity.
  - apply list_elem_of_lookup. exists 1%nat. reflexivity.
Defined.

(** The clip of the kiosk, asked for in capital letters. *)
Lemma checkout_other_spelling_not_found_witness :
  resolved Hex24.str Hex24.kiosk [Hex24.unknown_id] !! "00000000000000000000000A" =
    None ∧
  ∃ e,
    Hex24.checkout (Hex24.cart [("00000000000000000000000A", 1)]) (Some Hex24.kiosk) =
    (Raise e, Some (issue (Find "product" [Hex24.unknown_id]) Hex24.kiosk)).
Proof.
  apply (checkout_other_spelling_not_found Hex24.ObjectId Hex24.str
    Hex24.create_document Hex24.kiosk
    (Hex24.cart [("00000000000000000000000A", 1)]) [Hex24.unknown_id]
    {| CartItem.product_id := "00000000000000000000000A"; CartItem.quantity := 1 |}
    Hex24.unknown_id).
  - intros p Hp. apply list_elem_of_singleton in Hp as ->. run.
  - run.
  - apply list_elem_of_singleton. reflexivity.
  - run.
  - discriminate.
Defined.

(** A cable asked for 2^1024 times. *)
Lemma checkout_quantity_overflow_witness :
  Hex24.checkout (Hex24.cart [(Hex24.cable_id, 2 ^ 1024)]) (Some Hex24.catalogue) =
  (Raise (OverflowError "int too large to convert to float"),
   Some (issue (Find "product" [Hex24.cable_id]) Hex24.catalogue)).
Proof.
  apply (checkout_quantity_overflow Hex24.ObjectId Hex24.str
    Hex24.create_document Hex24.catalogue
    (Hex24.cart [(Hex24.cable_id, 2 ^ 1024)]) [Hex24.cable_id] []
    {| CartItem.product_id := Hex24.cable_id; CartItem.quantity := 2 ^ 1024 |} []
    (Hex24.cable_id,
     {| Product.title := Some "Type 2 Charging Cable 7m";
        Product.description := Some "Durable T2 to T2 cable, 32A, weatherproof.";
        Product.price := Some (Product.Float (S754_finite false 4538783999459328 (-45)));
        Product.category := Some "cables";
        Product.in_stock := Some true;
        Product.image := Some "https://images.unsplash.com/photo-1607860108855-0a3d85e9e599?q=80&w=1200&auto=format&fit=crop" |})
    (S754_finite false 4538783999459328 (-45))).
  - run.
  - reflexivity.
  - constructor.
  - constructor.
  - run.
  - reflexivity.
  - run.
Defined.

(** The prices of the catalogue are not negative, and so is the total of a
    cable and three inflators. *)
Lemma checkout_total_not_negative_witness :
  PyFloat.signed false (S754_finite false 5383208929591296 (-44)).
Proof.
  apply (checkout_total_not_negative Hex24.ObjectId Hex24.str
    Hex24.create_document Hex24.catalogue
    (Hex24.cart [(Hex24.cable_id, 1); (Hex24.inflator_id, 3)])
    {| CheckoutResponse.order_id := "000000000000000000000005";
       CheckoutResponse.total := S754_finite false 5383208929591296 (-44) |}
    (Hex24.checkout (Hex24.cart [(Hex24.cable_id, 1); (Hex24.inflator_id, 3)])
       (Some Hex24.catalogue)).2).
  - intros p Hp. vm_compute in Hp.
    repeat (apply elem_of_cons in Hp as [->|Hp]; [reflexivity|]).
    by apply elem_of_nil in Hp.
  - run.
Defined.

(** The clip as a document, serialized. *)
Lemma serialize_moves_id_witness :
  Hex24.serialize (document (Hex24.clip_id, Hex24.clip)) !! "_id" = None ∧
  Hex24.serialize (document (Hex24.clip_id, Hex24.clip)) !! "id" =
    Some (Text Hex24.clip_id) ∧
  ∀ key : string, key ≠ "_id" → key ≠ "id" →
    Hex24.serialize (document (Hex24.clip_id, Hex24.clip)) !! key =
    document (Hex24.clip_id, Hex24.clip) !! key.
Proof.
  apply (serialize_moves_id Hex24.str Hex24.str_number
    (document (Hex24.clip_id, Hex24.clip)) (Id Hex24.clip_id)).
  run.
Defined.

(** The cable and the clip as listed can be ordered. *)
Lemma listed_products_can_be_ordered_witness :
  ∃ ids,
    mapM Hex24.ObjectId [Hex24.cable_id; Hex24.clip_id] = Some ids ∧
    valid_cart (resolved Hex24.str Hex24.catalogue ids)
      (CheckoutRequest.items (Hex24.cart [(Hex24.cable_id, 1); (Hex24.clip_id, 2)])).
Proof.
  destruct (listed_products_can_be_ordered Hex24.ObjectId Hex24.str Hex24.str_number
    Hex24.create_document Hex24.catalogue
    (Hex24.cart [(Hex24.cable_id, 1); (Hex24.clip_id, 2)])
    (Hex24.serialize <$> (document <$> take 50 (product Hex24.catalogue))))
    as (ids & Hids & Hvalid & _).
  - intros p Hp. vm_compute in Hp.
    repeat (apply elem_of_cons in Hp as [->|Hp]; [reflexivity|]).
    by apply elem_of_nil in Hp.
  - reflexivity.
  - repeat constructor.
    + eexists. split; [apply list_elem_of_lookup; exists 1%nat; reflexivity|run].
    + eexists. split; [apply list_elem_of_lookup; exists 3%nat; reflexivity|run].
  - exists ids. split; [exact Hids|exact Hvalid].
Defined.
